(** * Flight service handlers ([flights/app.py])

    A shallow embedding of the four Flask view functions of the mock flight
    service, together with the effects they perform: reading the query
    string, emitting log records, asking the random identifier generator for
    an integer, and raising an exception. *)

From Stdlib Require Import ZArith String List Lia.
From stdpp Require Import base option strings gmap list.

Local Set Warnings "-register-all".
Local Open Scope Z_scope.
Local Open Scope string_scope.

(** ** Python values and JSON documents *)

(** The Python values the handlers pass to the logger and put into the
    dictionaries they hand to [jsonify]. *)
Inductive pyval : Type :=
  | PNone
  | PStr (s : string)
  | PInt (z : Z)
  | PList (l : list pyval).

(** The JSON document [jsonify] produces. *)
Inductive json : Type :=
  | JNull
  | JString (s : string)
  | JNumber (z : Z)
  | JArray (l : list json)
  | JObject (o : gmap string json).

Fixpoint dumps (v : pyval) : json :=
  match v with
  | PNone => JNull
  | PStr s => JString s
  | PInt z => JNumber z
  | PList l => JArray (map dumps l)
  end.

(** [jsonify(d)] for a dictionary [d] with string keys. *)
Definition jsonify (d : gmap string pyval) : json := JObject (dumps <$> d).

(** A value of type [Optional[str]], as [request.args.get] returns it. *)
Definition of_optional (o : option string) : pyval :=
  match o with
  | None => PNone
  | Some s => PStr s
  end.

(** Truth value of an [Optional[str]] in [if status_code:]: [None] and the
    empty string are false, every other string is true. *)
Definition truthy (o : option string) : bool :=
  match o with
  | None => false
  | Some s => negb (String.eqb s "")
  end.

(** [str(o)], the conversion an f-string applies to [{o}]. *)
Definition str (o : option string) : string :=
  match o with
  | None => "None"
  | Some s => s
  end.

(** ** The query string: [request.args] *)

Module MultiDict.

(** Werkzeug's [MultiDict]: the pairs of the query string in the order
    they were sent; a key may occur several times. *)
Definition t : Type := list (string * string).

(** [d.get(key)]: the first value sent for [key], or [None]. *)
Fixpoint get (key : string) (d : t) : option string :=
  match d with
  | [] => None
  | (k, v) :: d' => if String.eqb k key then Some v else get key d'
  end.

End MultiDict.

Record Request : Type := { args : MultiDict.t }.

(** ** Effects *)

Inductive level : Type := INFO | ERROR.

(** What a handler does besides computing its response: a log record (level,
    format string and arguments, as [logging] keeps them) or a call of the
    random identifier generator with the integer it returned. *)
Inductive event : Type :=
  | ELog (lvl : level) (msg : string) (largs : list pyval)
  | ERand (low high n : Z).

Inductive exn : Type := Exception (msg : string).

Inductive outcome (A : Type) : Type :=
  | Returned (a : A)
  | Raised (e : exn).
Arguments Returned {A} a.
Arguments Raised {A} e.

(** A run of a handler from a generator state: how it ended, the events it
    emitted in order, and the generator state it left. *)
Record run (G A : Type) : Type :=
  Run { result : outcome A; emitted : list event; final : G }.
Arguments Run {G A} result emitted final.
Arguments result {G A} r.
Arguments emitted {G A} r.
Arguments final {G A} r.

Definition M (G A : Type) : Type := G → run G A.

Global Instance M_ret {G} : MRet (M G) :=
  λ A a s, Run (Returned a) [] s.

(** An exception ends the computation; the events emitted before it stay. *)
Global Instance M_bind {G} : MBind (M G) :=
  λ A B f m s,
    let r := m s in
    match result r with
    | Returned a =>
        let r' := f a (final r) in
        Run (result r') (emitted r ++ emitted r') (final r')
    | Raised e => Run (Raised e) (emitted r) (final r)
    end.

Global Instance M_throw {G} : MThrow exn (M G) :=
  λ A e s, Run (Raised e) [] s.

Definition emit {G} (ev : event) : M G unit :=
  λ s, Run (Returned tt) [ev] s.

(** [if c: body] followed by the rest of the function. *)
Definition when {G} (c : bool) (body : M G unit) : M G unit :=
  if c then body else mret tt.

Module logger.
Definition info {G} (msg : string) (largs : list pyval) : M G unit :=
  emit (ELog INFO msg largs).
Definition error {G} (msg : string) (largs : list pyval) : M G unit :=
  emit (ELog ERROR msg largs).
End logger.

(** The integers the generator returned along a trace. *)
Definition drawn (evs : list event) : list Z :=
  omap (λ ev, match ev with ERand _ _ n => Some n | ELog _ _ _ => None end) evs.

(** The JSON body and the status code a view function returns. *)
Definition response : Type := json * Z.

(** ** The view functions *)

Section Handlers.

(** [utils.get_random_int] is imported, not defined, in [app.py]: the
    handlers are written over any generator with a state of its own. *)
Context {G : Type}.
Variable get_random_int : Z → Z → G → Z * G.

(** A call of the generator, recorded in the trace. *)
Definition call_get_random_int (low high : Z) : M G Z :=
  λ s, let '(n, s') := get_random_int low high s in
       Run (Returned n) [ERand low high n] s'.

Definition health : M G response :=
  logger.info "Health check endpoint called" [];;
  mret (jsonify {[ "status" := PStr "healthy" ]}, 200).

Definition home : M G response :=
  logger.info "Home endpoint called" [];;
  mret (jsonify {[ "message" := PStr "ok" ]}, 200).

Definition get_flights (request : Request) (airline : string) : M G response :=
  let status_code := MultiDict.get "raise" (args request) in
  logger.info "Get flights endpoint called for airline=%s, raise=%s"
    [PStr airline; of_optional status_code];;
  when (truthy status_code)
    (logger.error "Exception intentionally raised in flights endpoint for airline=%s"
       [PStr airline];;
     mthrow (Exception ("Encountered " ++ str status_code ++ " error")));;
  random_int ← call_get_random_int 100 999;
  logger.info "Returning flight %s for airline %s" [PInt random_int; PStr airline];;
  mret (jsonify {[ airline := PList [PInt random_int] ]}, 200).

Definition book_flight (request : Request) : M G response :=
  let passenger_name := MultiDict.get "passenger_name" (args request) in
  let flight_num := MultiDict.get "flight_num" (args request) in
  let status_code := MultiDict.get "raise" (args request) in
  logger.info "Book flight endpoint called for passenger=%s, flight_num=%s, raise=%s"
    [of_optional passenger_name; of_optional flight_num; of_optional status_code];;
  when (truthy status_code)
    (logger.error "Exception intentionally raised in book flight endpoint for passenger=%s"
       [of_optional passenger_name];;
     mthrow (Exception ("Encountered " ++ str status_code ++ " error")));;
  booking_id ← call_get_random_int 100 999;
  logger.info "Booked flight %s for passenger %s with booking_id %s"
    [of_optional flight_num; of_optional passenger_name; PInt booking_id];;
  mret (jsonify {[ "passenger_name" := of_optional passenger_name;
                   "flight_num" := of_optional flight_num;
                   "booking_id" := PInt booking_id ]}, 200).

End Handlers.

(** ** Collaborators outside [app.py] *)

Module utils.

(** Modelled from the spec: [utils.py], the module [app.py] imports
    [get_random_int] from, is not among the sources.  The spec's contract
    is that [RandomInt(low, high)] returns an integer of the inclusive
    range [[low, high]], every one of them being possible.  The generator
    state is a tape of raw draws; a call consumes the first one and folds
    it into the range (an exhausted tape reads as 0). *)
Definition get_random_int (low high : Z) (tape : list Z) : Z * list Z :=
  (low + hd 0 tape `mod` (high - low + 1), tl tape).

End utils.

(** Modelled from the spec: the transport layer is the web framework, not
    code of this repository.  It answers with the status code the view
    function returned and converts an error the view function did not catch
    into a generic server-error response (status 500). *)
Definition transport_status (r : outcome response) : Z :=
  match r with
  | Returned (_, code) => code
  | Raised _ => 500
  end.

(** ** Vocabulary of the statements *)

(** The failure trigger is absent or empty. *)
Definition no_fail_code (request : Request) : Prop :=
  MultiDict.get "raise" (args request) = None ∨
  MultiDict.get "raise" (args request) = Some "".

(** The failure trigger is the non-empty string [code]. *)
Definition fail_code (request : Request) (code : string) : Prop :=
  MultiDict.get "raise" (args request) = Some code ∧ code ≠ "".

(** A success response whose JSON object has exactly the keys [keys]. *)
Definition succeeds_with_keys (r : outcome response) (keys : gset string) : Prop :=
  ∃ o, r = Returned (JObject o, 200) ∧ dom o = keys.

Definition in_range (n : Z) : Prop := (100 ≤ n ≤ 999)%Z.

(** The spec's contract of the random identifier generator: called with
    [low ≤ high] it returns an integer of the inclusive range [[low, high]]. *)
Definition random_int_contract {G} (g : Z → Z → G → Z * G) : Prop :=
  ∀ low high s, (low ≤ high)%Z → (low ≤ (g low high s).1 ≤ high)%Z.

(** ** Start-up configuration *)

Module os.

(** [os.getenv(key, default)] over the process environment: the variable's
    value when it is set, [default] when it is not. *)
Definition getenv (environ : gmap string string) (key default : string) : string :=
  match environ !! key with
  | Some v => v
  | None => default
  end.

End os.

(** The [endpoint] argument [app.py] builds for the OTLP log exporter. *)
Definition otlp_exporter_endpoint (environ : gmap string string) : string :=
  os.getenv environ "OTEL_EXPORTER_OTLP_ENDPOINT" "http://alloy:4318" ++ "/v1/logs".

(** ** Vocabulary of the further properties *)

(** The log records of a trace, in order. *)
Definition records (evs : list event) : list (level * string * list pyval) :=
  omap (λ ev, match ev with
              | ELog lvl msg largs => Some (lvl, msg, largs)
              | ERand _ _ _ => None
              end) evs.

(** A generator call of a trace was made with the bounds 100 and 999 and
    returned an integer of the closed range [[100, 999]]; log records pass. *)
Definition call_in_range (ev : event) : Prop :=
  match ev with
  | ERand low high n => low = 100%Z ∧ high = 999%Z ∧ in_range n
  | ELog _ _ _ => True
  end.

(** The trace holds a record of error severity. *)
Definition error_logged (evs : list event) : Prop :=
  ∃ msg largs, ELog ERROR msg largs ∈ evs.

(** The run ended with an exception. *)
Definition raised {A} (r : outcome A) : Prop := ∃ e, r = Raised e.

(** ** Basic facts *)

Lemma truthy_true (o : option string) :
  truthy o = true ↔ ∃ code, o = Some code ∧ code ≠ "".
Proof.
  destruct o as [s|]; simpl.
  - rewrite negb_true_iff, String.eqb_neq. split.
    + intros Hs. by exists s.
    + intros (code & [= ->] & Hcode). done.
  - split; [done | by intros (code & ? & _)].
Qed.

Lemma truthy_false (o : option string) :
  truthy o = false ↔ o = None ∨ o = Some "".
Proof.
  destruct o as [s|]; simpl.
  - rewrite negb_false_iff, String.eqb_eq. split.
    + intros ->. by right.
    + by intros [|[= ->]].
  - split; [by left | done].
Qed.

Lemma fail_code_truthy request code :
  fail_code request code → truthy (MultiDict.get "raise" (args request)) = true.
Proof. intros [Hget Hne]. apply truthy_true. eauto. Qed.

Lemma no_fail_code_truthy request :
  no_fail_code request → truthy (MultiDict.get "raise" (args request)) = false.
Proof. intros H. by apply truthy_false. Qed.

Lemma jsonify_singleton k v : jsonify {[ k := v ]} = JObject {[ k := dumps v ]}.
Proof. unfold jsonify. by rewrite map_fmap_singleton. Qed.

Lemma jsonify_booking pn fn n :
  jsonify {[ "passenger_name" := pn; "flight_num" := fn; "booking_id" := PInt n ]} =
  JObject {[ "passenger_name" := dumps pn; "flight_num" := dumps fn;
             "booking_id" := JNumber n ]}.
Proof. unfold jsonify. by rewrite !fmap_insert, map_fmap_singleton. Qed.

Lemma utils_get_random_int_range low high tape :
  (low ≤ high)%Z → (low ≤ (utils.get_random_int low high tape).1 ≤ high)%Z.
Proof.
  intros Hle. unfold utils.get_random_int. simpl.
  pose proof (Z.mod_pos_bound (hd 0 tape) (high - low + 1)%Z). lia.
Qed.

(** Every integer of the range is a possible result. *)
Lemma utils_get_random_int_onto low high n tape :
  (low ≤ n ≤ high)%Z →
  (utils.get_random_int low high ((n - low)%Z :: tape)).1 = n.
Proof.
  intros Hn. unfold utils.get_random_int. simpl.
  rewrite Z.mod_small by lia. lia.
Qed.

(** ** The two paths of the flight handlers *)

Section Paths.

Context {G : Type}.
Variable get_random_int : Z → Z → G → Z * G.
Variables (request : Request) (airline : string) (s : G).

Let status_code := MultiDict.get "raise" (args request).
Let passenger_name := MultiDict.get "passenger_name" (args request).
Let flight_num := MultiDict.get "flight_num" (args request).

Lemma health_run :
  @health G s =
  Run (Returned (JObject {[ "status" := JString "healthy" ]}, 200))
      [ELog INFO "Health check endpoint called" []] s.
Proof. unfold health. by rewrite jsonify_singleton. Qed.

Lemma home_run :
  @home G s =
  Run (Returned (JObject {[ "message" := JString "ok" ]}, 200))
      [ELog INFO "Home endpoint called" []] s.
Proof. unfold home. by rewrite jsonify_singleton. Qed.

Lemma get_flights_raise :
  truthy status_code = true →
  get_flights get_random_int request airline s =
  Run (Raised (Exception ("Encountered " ++ str status_code ++ " error")))
      [ELog INFO "Get flights endpoint called for airline=%s, raise=%s"
         [PStr airline; of_optional status_code];
       ELog ERROR "Exception intentionally raised in flights endpoint for airline=%s"
         [PStr airline]]
      s.
Proof.
  intros Ht. unfold get_flights. fold status_code. rewrite Ht. reflexivity.
Qed.

Lemma get_flights_return :
  truthy status_code = false →
  get_flights get_random_int request airline s =
  let n := (get_random_int 100 999 s).1 in
  Run (Returned (JObject {[ airline := JArray [JNumber n] ]}, 200))
      [ELog INFO "Get flights endpoint called for airline=%s, raise=%s"
         [PStr airline; of_optional status_code];
       ERand 100 999 n;
       ELog INFO "Returning flight %s for airline %s" [PInt n; PStr airline]]
      (get_random_int 100 999 s).2.
Proof.
  intros Ht. unfold get_flights. fold status_code. rewrite Ht.
  unfold mbind, M_bind, call_get_random_int. simpl.
  destruct (get_random_int 100 999 s) as [n s']. simpl.
  by rewrite jsonify_singleton.
Qed.

Lemma book_flight_raise :
  truthy status_code = true →
  book_flight get_random_int request s =
  Run (Raised (Exception ("Encountered " ++ str status_code ++ " error")))
      [ELog INFO "Book flight endpoint called for passenger=%s, flight_num=%s, raise=%s"
         [of_optional passenger_name; of_optional flight_num; of_optional status_code];
       ELog ERROR "Exception intentionally raised in book flight endpoint for passenger=%s"
         [of_optional passenger_name]]
      s.
Proof.
  intros Ht. unfold book_flight. fold status_code. rewrite Ht. reflexivity.
Qed.

Lemma book_flight_return :
  truthy status_code = false →
  book_flight get_random_int request s =
  let n := (get_random_int 100 999 s).1 in
  Run (Returned (JObject {[ "passenger_name" := dumps (of_optional passenger_name);
                            "flight_num" := dumps (of_optional flight_num);
                            "booking_id" := JNumber n ]}, 200))
      [ELog INFO "Book flight endpoint called for passenger=%s, flight_num=%s, raise=%s"
         [of_optional passenger_name; of_optional flight_num; of_optional status_code];
       ERand 100 999 n;
       ELog INFO "Booked flight %s for passenger %s with booking_id %s"
         [of_optional flight_num; of_optional passenger_name; PInt n]]
      (get_random_int 100 999 s).2.
Proof.
  intros Ht. unfold book_flight. fold status_code. rewrite Ht.
  unfold mbind, M_bind, call_get_random_int. simpl.
  destruct (get_random_int 100 999 s) as [n s']. simpl.
  by rewrite jsonify_booking.
Qed.

End Paths.

(** ** The handlers at work *)

Example get_flights_AA :
  get_flights utils.get_random_int {| args := [] |} "AA" [1234%Z; 77%Z] =
  Run (Returned (JObject {[ "AA" := JArray [JNumber 434] ]}, 200%Z))
      [ELog INFO "Get flights endpoint called for airline=%s, raise=%s"
         [PStr "AA"; PNone];
       ERand 100 999 434;
       ELog INFO "Returning flight %s for airline %s" [PInt 434; PStr "AA"]]
      [77%Z].
Proof. vm_compute. reflexivity. Qed.

Example get_flights_raise_500 :
  get_flights utils.get_random_int {| args := [("raise", "500")] |} "AA" [1234%Z] =
  Run (Raised (Exception "Encountered 500 error"))
      [ELog INFO "Get flights endpoint called for airline=%s, raise=%s"
         [PStr "AA"; PStr "500"];
       ELog ERROR "Exception intentionally raised in flights endpoint for airline=%s"
         [PStr "AA"]]
      [1234%Z].
Proof. vm_compute. reflexivity. Qed.

(** The first value sent for [raise] decides: an empty one followed by
    ["500"] does not trigger the failure. *)
Example book_flight_first_raise_wins :
  result (book_flight utils.get_random_int
            {| args := [("raise", ""); ("flight_num", "202"); ("raise", "500")] |}
            [899%Z]) =
  Returned (JObject {[ "passenger_name" := JNull; "flight_num" := JString "202";
                       "booking_id" := JNumber 999 ]}, 200%Z).
Proof. vm_compute. reflexivity. Qed.

Example health_anywhere :
  result (@health (list Z) []) =
  Returned (JObject {[ "status" := JString "healthy" ]}, 200%Z).
Proof. vm_compute. reflexivity. Qed.

(** ** Failure injection *)

(** C1.  In LookupFlight and in BookFlight alike, when the [raise] query
    parameter is a non-empty string [code] (any such string, not only
    ["500"]), the handler emits an error-severity log record and ends with
    an exception whose message embeds [code]; nothing in the handler catches
    it, so it reaches the transport layer, which answers with a server-side
    error status. *)
Theorem fail_code_raises_uncaught
    {G} (g : Z → Z → G → Z * G) request airline code s :
  fail_code request code →
  let r1 := get_flights g request airline s in
  let r2 := book_flight g request s in
  (result r1 = Raised (Exception ("Encountered " ++ code ++ " error")) ∧
   (∃ msg largs, ELog ERROR msg largs ∈ emitted r1) ∧
   transport_status (result r1) = 500%Z) ∧
  (result r2 = Raised (Exception ("Encountered " ++ code ++ " error")) ∧
   (∃ msg largs, ELog ERROR msg largs ∈ emitted r2) ∧
   transport_status (result r2) = 500%Z).
Proof.
  intros Hfail r1 r2. subst r1 r2.
  pose proof (fail_code_truthy _ _ Hfail) as Ht. destruct Hfail as [Hget _].
  rewrite get_flights_raise, book_flight_raise by done. rewrite Hget. simpl.
  split; (split; [done | split; [| done]]); do 2 eexists; apply elem_of_cons; right; apply elem_of_cons; by left.
Qed.

Lemma fail_code_raises_uncaught_witness :
  let request := {| args := [("passenger_name", "John Doe"); ("raise", "teapot")] |} in
  let r1 := get_flights utils.get_random_int request "AA" [42%Z] in
  let r2 := book_flight utils.get_random_int request [42%Z] in
  (result r1 = Raised (Exception "Encountered teapot error") ∧
   (∃ msg largs, ELog ERROR msg largs ∈ emitted r1) ∧
   transport_status (result r1) = 500%Z) ∧
  (result r2 = Raised (Exception "Encountered teapot error") ∧
   (∃ msg largs, ELog ERROR msg largs ∈ emitted r2) ∧
   transport_status (result r2) = 500%Z).
Proof.
  apply (fail_code_raises_uncaught utils.get_random_int
           {| args := [("passenger_name", "John Doe"); ("raise", "teapot")] |}
           "AA" "teapot" [42%Z]).
  split; [reflexivity | discriminate].
Defined.

(** ** The random identifier generator *)

(** C2.  Every integer the random identifier generator produces for
    LookupFlight (the flight number) and for BookFlight (the booking id)
    lies in the closed range [[100, 999]].  For every generator that meets
    the spec's contract: each call the handlers make is made with the bounds
    100 and 999 and returns an integer of the range, and whenever a handler
    returns, the flight number (the booking id) in its response is the one
    integer it drew, and lies in the range. *)
Theorem generated_identifiers_in_range
    {G} (g : Z → Z → G → Z * G) request airline s :
  random_int_contract g →
  let r1 := get_flights g request airline s in
  let r2 := book_flight g request s in
  Forall call_in_range (emitted r1) ∧
  Forall call_in_range (emitted r2) ∧
  (∀ body code, result r1 = Returned (body, code) →
     ∃ N : Z, body = JObject {[ airline := JArray [JNumber N] ]} ∧
              drawn (emitted r1) = [N] ∧ (100 ≤ N ≤ 999)%Z) ∧
  (∀ body code, result r2 = Returned (body, code) →
     ∃ (N : Z) (o : gmap string json),
       body = JObject o ∧ o !! "booking_id" = Some (JNumber N) ∧
       drawn (emitted r2) = [N] ∧ (100 ≤ N ≤ 999)%Z).
Proof.
  intros Hg r1 r2. subst r1 r2.
  assert (in_range (g 100 999 s).1) as Hn by (by apply Hg).
  destruct (truthy (MultiDict.get "raise" (args request))) eqn:Ht.
  - rewrite get_flights_raise, book_flight_raise by done. simpl.
    repeat split; try (by repeat constructor); by intros body code [=].
  - rewrite get_flights_return, book_flight_return by done. simpl.
    split; [| split; [| split]].
    + rewrite !Forall_cons, Forall_nil. by simpl.
    + rewrite !Forall_cons, Forall_nil. by simpl.
    + intros body code [= <- _]. by exists (g 100 999 s).1.
    + intros body code [= <- _]. exists (g 100 999 s).1. eexists.
      split; [reflexivity |]. split; [by simplify_map_eq | done].
Qed.

Lemma generated_identifiers_in_range_witness :
  let r1 := get_flights utils.get_random_int {| args := [] |} "AA" [1234%Z] in
  let r2 := book_flight utils.get_random_int {| args := [] |} [1234%Z] in
  Forall call_in_range (emitted r1) ∧
  Forall call_in_range (emitted r2) ∧
  (∀ body code, result r1 = Returned (body, code) →
     ∃ N : Z, body = JObject {[ "AA" := JArray [JNumber N] ]} ∧
              drawn (emitted r1) = [N] ∧ (100 ≤ N ≤ 999)%Z) ∧
  (∀ body code, result r2 = Returned (body, code) →
     ∃ (N : Z) (o : gmap string json),
       body = JObject o ∧ o !! "booking_id" = Some (JNumber N) ∧
       drawn (emitted r2) = [N] ∧ (100 ≤ N ≤ 999)%Z).
Proof.
  apply (generated_identifiers_in_range utils.get_random_int
           {| args := [] |} "AA" [1234%Z]).
  intros low high tape Hle. by apply utils_get_random_int_range.
Defined.

(** ** Success path *)

Lemma dom_booking (x y z : json) :
  dom ({[ "passenger_name" := x; "flight_num" := y; "booking_id" := z ]}
         : gmap string json) =
  ({[ "passenger_name"; "flight_num"; "booking_id" ]} : gset string).
Proof. rewrite !dom_insert_L, dom_singleton_L. set_solver. Qed.

(** C3.  Without a non-empty [raise] parameter each of the four operations
    succeeds, with a success status and a body that has the expected keys.
    A handler raises only when the caller supplied a non-empty failure
    trigger, and what it raises then is the injected failure: there is no
    other error path. *)
Theorem only_injected_failure
    {G} (g : Z → Z → G → Z * G) request airline s :
  (no_fail_code request →
   succeeds_with_keys (result (@health G s)) {[ "status" ]} ∧
   succeeds_with_keys (result (@home G s)) {[ "message" ]} ∧
   succeeds_with_keys (result (get_flights g request airline s)) {[ airline ]} ∧
   succeeds_with_keys (result (book_flight g request s))
     {[ "passenger_name"; "flight_num"; "booking_id" ]}) ∧
  (∀ e, result (@health G s) ≠ Raised e ∧ result (@home G s) ≠ Raised e) ∧
  (∀ e, result (get_flights g request airline s) = Raised e ∨
        result (book_flight g request s) = Raised e →
        ∃ code, fail_code request code ∧
                e = Exception ("Encountered " ++ code ++ " error")).
Proof.
  split; [| split].
  - intros Hno. apply no_fail_code_truthy in Hno.
    rewrite health_run, home_run, get_flights_return, book_flight_return by done.
    simpl. repeat split; eexists; (split; [reflexivity |]).
    + by rewrite dom_singleton_L.
    + by rewrite dom_singleton_L.
    + by rewrite dom_singleton_L.
    + apply dom_booking.
  - intros e. by rewrite health_run, home_run.
  - intros e He.
    destruct (truthy (MultiDict.get "raise" (args request))) eqn:Ht.
    + pose proof Ht as (code & Hget & Hne)%truthy_true.
      exists code. split; [done |].
      rewrite get_flights_raise, book_flight_raise in He by done.
      rewrite Hget in He. simpl in He. by destruct He as [[= <-]|[= <-]].
    + rewrite get_flights_return, book_flight_return in He by done.
      simpl in He. by destruct He.
Qed.

Lemma only_injected_failure_witness :
  let request := {| args := [("passenger_name", "Jane Doe"); ("raise", "")] |} in
  succeeds_with_keys (result (@health (list Z) [7%Z])) {[ "status" ]} ∧
  succeeds_with_keys (result (@home (list Z) [7%Z])) {[ "message" ]} ∧
  succeeds_with_keys
    (result (get_flights utils.get_random_int request "UA" [7%Z])) {[ "UA" ]} ∧
  succeeds_with_keys (result (book_flight utils.get_random_int request [7%Z]))
    {[ "passenger_name"; "flight_num"; "booking_id" ]}.
Proof.
  apply (only_injected_failure utils.get_random_int
           {| args := [("passenger_name", "Jane Doe"); ("raise", "")] |}
           "UA" [7%Z]).
  right. reflexivity.
Defined.

(** C4.  On the success path LookupFlight for the airline ["AA"] returns,
    with status 200, the body [{"AA": [N]}]: one key, the airline, mapped to
    a list of exactly one integer [N], and 100 ≤ N ≤ 999.  The bound is the
    generator's contract at the bounds the handler passes. *)
Theorem lookup_AA_shape {G} (g : Z → Z → G → Z * G) request s :
  random_int_contract g →
  no_fail_code request →
  ∃ N : Z,
    result (get_flights g request "AA" s) =
      Returned (JObject {[ "AA" := JArray [JNumber N] ]}, 200%Z) ∧
    (100 ≤ N ≤ 999)%Z.
Proof.
  intros Hg Hno. apply no_fail_code_truthy in Hno.
  exists (g 100 999 s).1%Z. rewrite get_flights_return by done.
  split; [done |]. by apply Hg.
Qed.

Lemma lookup_AA_shape_witness :
  ∃ N : Z,
    result (get_flights utils.get_random_int {| args := [] |} "AA" [1234%Z]) =
      Returned (JObject {[ "AA" := JArray [JNumber N] ]}, 200%Z) ∧
    (100 ≤ N ≤ 999)%Z.
Proof.
  apply (lookup_AA_shape utils.get_random_int {| args := [] |} [1234%Z]).
  - intros low high tape Hle. by apply utils_get_random_int_range.
  - left. reflexivity.
Defined.

(** C5.  On the success path BookFlight returns, with status 200, a body
    with exactly the keys [passenger_name], [flight_num] and [booking_id]:
    the first two echo the supplied inputs unchanged and [booking_id] is an
    integer [N] with 100 ≤ N ≤ 999. *)
Theorem book_flight_shape
    {G} (g : Z → Z → G → Z * G) request (name num : string) s :
  random_int_contract g →
  no_fail_code request →
  MultiDict.get "passenger_name" (args request) = Some name →
  MultiDict.get "flight_num" (args request) = Some num →
  ∃ (N : Z) (o : gmap string json),
    result (book_flight g request s) = Returned (JObject o, 200%Z) ∧
    o = {[ "passenger_name" := JString name; "flight_num" := JString num;
           "booking_id" := JNumber N ]} ∧
    dom o = {[ "passenger_name"; "flight_num"; "booking_id" ]} ∧
    (100 ≤ N ≤ 999)%Z.
Proof.
  intros Hg Hno Hname Hnum. apply no_fail_code_truthy in Hno.
  exists (g 100 999 s).1%Z. eexists. rewrite book_flight_return by done.
  rewrite Hname, Hnum. simpl.
  split; [reflexivity |]. split; [reflexivity |].
  split; [apply dom_booking | by apply Hg].
Qed.

Lemma book_flight_shape_witness :
  ∃ (N : Z) (o : gmap string json),
    result (book_flight utils.get_random_int
              {| args := [("passenger_name", "John Doe"); ("flight_num", "101")] |}
              [2025%Z]) = Returned (JObject o, 200%Z) ∧
    o = {[ "passenger_name" := JString "John Doe"; "flight_num" := JString "101";
           "booking_id" := JNumber N ]} ∧
    dom o = {[ "passenger_name"; "flight_num"; "booking_id" ]} ∧
    (100 ≤ N ≤ 999)%Z.
Proof.
  apply (book_flight_shape utils.get_random_int
           {| args := [("passenger_name", "John Doe"); ("flight_num", "101")] |}
           "John Doe" "101" [2025%Z]).
  - intros low high tape Hle. by apply utils_get_random_int_range.
  - left. reflexivity.
  - reflexivity.
  - reflexivity.
Defined.

(** C6.  HealthCheck takes no input and, whatever the state it runs in,
    returns the body [{"status": "healthy"}] with status 200, emits exactly
    one informational log record and never raises. *)
Theorem health_always_healthy {G} (s : G) :
  @health G s =
    Run (Returned (JObject {[ "status" := JString "healthy" ]}, 200%Z))
        [ELog INFO "Health check endpoint called" []] s ∧
  transport_status (result (@health G s)) = 200%Z.
Proof. rewrite health_run. by split. Qed.

(** C7.  LookupFlight does not validate the airline: for every string, also
    one outside the documented codes, the request is accepted and the string
    is the key of the success body. *)
Theorem airline_not_validated
    {G} (g : Z → Z → G → Z * G) request (airline : string) s :
  no_fail_code request →
  ∃ N : Z,
    result (get_flights g request airline s) =
      Returned (JObject {[ airline := JArray [JNumber N] ]}, 200%Z).
Proof.
  intros Hno. apply no_fail_code_truthy in Hno.
  eexists. by rewrite get_flights_return.
Qed.

Lemma airline_not_validated_witness :
  ∃ N : Z,
    result (get_flights utils.get_random_int {| args := [] |} "ZZ9" [0%Z]) =
      Returned (JObject {[ "ZZ9" := JArray [JNumber N] ]}, 200%Z).
Proof.
  apply (airline_not_validated utils.get_random_int {| args := [] |}
           "ZZ9" [0%Z]).
  left. reflexivity.
Defined.

(** ** Order of effects *)

(** C8.  Both handlers first extract their parameters, then emit the entry
    log record (which carries the extracted values), then branch on the
    failure trigger; the generator is called only after that, on the success
    path.  On the failure path the trace has no generator call and the
    generator state is left as it was. *)
Theorem control_flow_order
    {G} (g : Z → Z → G → Z * G) request airline s :
  let status_code := MultiDict.get "raise" (args request) in
  let passenger_name := MultiDict.get "passenger_name" (args request) in
  let flight_num := MultiDict.get "flight_num" (args request) in
  let n := (g 100 999 s).1 in
  let r1 := get_flights g request airline s in
  let r2 := book_flight g request s in
  (emitted r1 =
     ELog INFO "Get flights endpoint called for airline=%s, raise=%s"
       [PStr airline; of_optional status_code] ::
     (if truthy status_code
      then [ELog ERROR "Exception intentionally raised in flights endpoint for airline=%s"
              [PStr airline]]
      else [ERand 100 999 n;
            ELog INFO "Returning flight %s for airline %s" [PInt n; PStr airline]])) ∧
  (emitted r2 =
     ELog INFO "Book flight endpoint called for passenger=%s, flight_num=%s, raise=%s"
       [of_optional passenger_name; of_optional flight_num; of_optional status_code] ::
     (if truthy status_code
      then [ELog ERROR "Exception intentionally raised in book flight endpoint for passenger=%s"
              [of_optional passenger_name]]
      else [ERand 100 999 n;
            ELog INFO "Booked flight %s for passenger %s with booking_id %s"
              [of_optional flight_num; of_optional passenger_name; PInt n]])) ∧
  (if truthy status_code
   then drawn (emitted r1) = [] ∧ final r1 = s ∧
        drawn (emitted r2) = [] ∧ final r2 = s
   else drawn (emitted r1) = [n] ∧ drawn (emitted r2) = [n]).
Proof.
  intros status_code passenger_name flight_num n r1 r2.
  subst r1 r2 n passenger_name flight_num.
  destruct (truthy status_code) eqn:Ht; subst status_code.
  - by rewrite get_flights_raise, book_flight_raise.
  - by rewrite get_flights_return, book_flight_return.
Qed.

(** ** Missing parameters *)

(** C9.  A BookFlight request from which [passenger_name] or [flight_num]
    is entirely absent still succeeds with status 200, and the body carries
    [null] for the missing field: absence of a required parameter is not an
    error. *)
Theorem absent_parameters_echo_null
    {G} (g : Z → Z → G → Z * G) request s :
  no_fail_code request →
  ∃ o : gmap string json,
    result (book_flight g request s) = Returned (JObject o, 200%Z) ∧
    (MultiDict.get "passenger_name" (args request) = None →
     o !! "passenger_name" = Some JNull) ∧
    (MultiDict.get "flight_num" (args request) = None →
     o !! "flight_num" = Some JNull).
Proof.
  intros Hno. apply no_fail_code_truthy in Hno.
  eexists. rewrite book_flight_return by done. simpl.
  split; [reflexivity |]. split; intros ->; by simplify_map_eq.
Qed.

Lemma absent_parameters_echo_null_witness :
  ∃ o : gmap string json,
    result (book_flight utils.get_random_int {| args := [] |} [5%Z]) =
      Returned (JObject o, 200%Z) ∧
    o !! "passenger_name" = Some JNull ∧
    o !! "flight_num" = Some JNull.
Proof.
  destruct (absent_parameters_echo_null utils.get_random_int {| args := [] |} [5%Z])
    as (o & Hres & Hname & Hnum).
  - left. reflexivity.
  - exists o. split; [exact Hres |].
    split; [apply Hname | apply Hnum]; reflexivity.
Defined.

(** ** Determinism *)

(** C10.  Each handler is deterministic up to the generator: two executions
    of LookupFlight (or of BookFlight) on the same input, in which the
    generator returns the same integer, end with the same body and status
    code, whatever generator and generator state each of them runs with. *)
Theorem deterministic_modulo_generator
    {G1 G2} (g1 : Z → Z → G1 → Z * G1) (g2 : Z → Z → G2 → Z * G2)
    request airline s1 s2 :
  (g1 100 999 s1).1 = (g2 100 999 s2).1 →
  result (get_flights g1 request airline s1) =
    result (get_flights g2 request airline s2) ∧
  result (book_flight g1 request s1) = result (book_flight g2 request s2).
Proof.
  intros Hn.
  destruct (truthy (MultiDict.get "raise" (args request))) eqn:Ht.
  - by rewrite !get_flights_raise, !book_flight_raise.
  - rewrite !get_flights_return, !book_flight_return by done. simpl.
    by rewrite Hn.
Qed.

Lemma deterministic_modulo_generator_witness :
  let request := {| args := [("passenger_name", "John Doe"); ("flight_num", "303")] |} in
  result (get_flights utils.get_random_int request "DL" [5%Z; 1%Z]) =
    result (get_flights utils.get_random_int request "DL" [905%Z]) ∧
  result (book_flight utils.get_random_int request [5%Z; 1%Z]) =
    result (book_flight utils.get_random_int request [905%Z]).
Proof.
  apply (deterministic_modulo_generator utils.get_random_int utils.get_random_int
           {| args := [("passenger_name", "John Doe"); ("flight_num", "303")] |}
           "DL" [5%Z; 1%Z] [905%Z]).
  reflexivity.
Defined.


(** * Further properties of the handlers *)

(** ** Strings and query strings *)

Lemma string_length_app (s t : string) :
  String.length (s ++ t) = (String.length s + String.length t)%nat.
Proof. induction s as [|a s IH]; simpl; [done | by rewrite IH]. Qed.

Lemma string_app_inv_tail (s1 s2 t : string) : s1 ++ t = s2 ++ t → s1 = s2.
Proof.
  revert s2. induction s1 as [|a s1 IH]; intros [|b s2] Heq; simpl in Heq.
  - done.
  - apply (f_equal String.length) in Heq.
    rewrite !string_length_app in Heq. simpl in Heq.
    rewrite ?string_length_app in Heq. lia.
  - apply (f_equal String.length) in Heq.
    rewrite !string_length_app in Heq. simpl in Heq.
    rewrite ?string_length_app in Heq. lia.
  - injection Heq as -> Heq. f_equal. by apply IH.
Qed.

Lemma message_inj (c1 c2 : string) :
  "Encountered " ++ c1 ++ " error" = "Encountered " ++ c2 ++ " error" → c1 = c2.
Proof.
  intros Heq. apply (inj (String.app "Encountered ")) in Heq.
  by apply string_app_inv_tail in Heq.
Qed.

(** A pair under another key, wherever it stands, is invisible to [get]. *)
Lemma get_app_cons_ne key k v (d1 d2 : MultiDict.t) :
  k ≠ key →
  MultiDict.get key (d1 ++ (k, v) :: d2)%list = MultiDict.get key (d1 ++ d2)%list.
Proof.
  intros Hne. induction d1 as [|[k' v'] d1 IH]; simpl.
  - apply String.eqb_neq in Hne. by rewrite Hne.
  - by rewrite IH.
Qed.

(** What follows the first value sent for a key is invisible to [get]. *)
Lemma get_app_Some key v (d d' : MultiDict.t) :
  MultiDict.get key d = Some v → MultiDict.get key (d ++ d')%list = Some v.
Proof.
  induction d as [|[k' v'] d IH]; simpl; [done |].
  by destruct (String.eqb k' key).
Qed.

Lemma get_app_None key (d d' : MultiDict.t) :
  MultiDict.get key d = None → MultiDict.get key (d ++ d')%list = MultiDict.get key d'.
Proof.
  induction d as [|[k' v'] d IH]; simpl; [done |].
  by destruct (String.eqb k' key).
Qed.

(** ** What a handler reads *)

Section Reads.

Context {G : Type}.
Variable g : Z → Z → G → Z * G.

Lemma get_flights_reads request1 request2 airline s :
  MultiDict.get "raise" (args request1) = MultiDict.get "raise" (args request2) →
  get_flights g request1 airline s = get_flights g request2 airline s.
Proof. intros Heq. unfold get_flights. by rewrite Heq. Qed.

Lemma book_flight_reads request1 request2 s :
  MultiDict.get "passenger_name" (args request1) =
    MultiDict.get "passenger_name" (args request2) →
  MultiDict.get "flight_num" (args request1) =
    MultiDict.get "flight_num" (args request2) →
  MultiDict.get "raise" (args request1) = MultiDict.get "raise" (args request2) →
  book_flight g request1 s = book_flight g request2 s.
Proof. intros H1 H2 H3. unfold book_flight. by rewrite H1, H2, H3. Qed.

(** How a run of either flight handler can end in an exception. *)
Lemma raised_inv request airline s e :
  result (get_flights g request airline s) = Raised e ∨
  result (book_flight g request s) = Raised e →
  ∃ code, MultiDict.get "raise" (args request) = Some code ∧ code ≠ "" ∧
          e = Exception ("Encountered " ++ code ++ " error").
Proof.
  intros He.
  destruct (truthy (MultiDict.get "raise" (args request))) eqn:Ht.
  - pose proof Ht as (code & Hget & Hne)%truthy_true.
    exists code. split; [done |]. split; [done |].
    rewrite get_flights_raise, book_flight_raise in He by done.
    rewrite Hget in He. simpl in He. by destruct He as [[= <-]|[= <-]].
  - rewrite get_flights_return, book_flight_return in He by done.
    simpl in He. by destruct He.
Qed.

End Reads.

(** ** Log records *)

(** Refutes [H : ELog ERROR _ _ ∈ evs] for a trace [evs], written out, that
    has no such record. *)
Ltac no_error_record H :=
  repeat (apply elem_of_cons in H as [H|H]; [discriminate H |]);
  by apply elem_of_nil in H.

(** X1.  In each of the four handlers a record of error severity is logged
    exactly when the run ends with an exception: no failure goes unlogged
    and no error record is written for a request that succeeds. *)
Theorem error_record_iff_raised
    {G} (g : Z → Z → G → Z * G) request airline s :
  (error_logged (emitted (@health G s)) ↔ raised (result (@health G s))) ∧
  (error_logged (emitted (@home G s)) ↔ raised (result (@home G s))) ∧
  (error_logged (emitted (get_flights g request airline s)) ↔
   raised (result (get_flights g request airline s))) ∧
  (error_logged (emitted (book_flight g request s)) ↔
   raised (result (book_flight g request s))).
Proof.
  unfold error_logged, raised. rewrite health_run, home_run.
  split; [| split].
  - simpl. split; [intros (msg & largs & H); no_error_record H | by intros [e ?]].
  - simpl. split; [intros (msg & largs & H); no_error_record H | by intros [e ?]].
  - destruct (truthy (MultiDict.get "raise" (args request))) eqn:Ht.
    + rewrite get_flights_raise, book_flight_raise by done. simpl.
      split; (split; [intros _; by eexists |]); intros _; do 2 eexists;
        apply elem_of_cons; right; apply elem_of_cons; by left.
    + rewrite get_flights_return, book_flight_return by done. simpl.
      split; (split; [intros (msg & largs & H); no_error_record H
                     | by intros [e ?]]).
Qed.

(** X2.  The number of log records per request does not depend on the
    path taken: a flight lookup or booking writes exactly two records,
    whether it fails or succeeds, and each probe writes exactly one. *)
Theorem log_records_per_request
    {G} (g : Z → Z → G → Z * G) request airline s :
  length (records (emitted (@health G s))) = 1%nat ∧
  length (records (emitted (@home G s))) = 1%nat ∧
  length (records (emitted (get_flights g request airline s))) = 2%nat ∧
  length (records (emitted (book_flight g request s))) = 2%nat.
Proof.
  rewrite health_run, home_run.
  destruct (truthy (MultiDict.get "raise" (args request))) eqn:Ht.
  - by rewrite get_flights_raise, book_flight_raise.
  - by rewrite get_flights_return, book_flight_return.
Qed.

(** ** Query parameters *)

(** X3.  A query parameter the handler does not read changes nothing,
    wherever it stands in the query string: LookupFlight ignores every key
    but [raise], BookFlight every key but [passenger_name], [flight_num]
    and [raise].  Response, log records and generator call are the same
    with and without it. *)
Theorem unread_parameters_ignored
    {G} (g : Z → Z → G → Z * G) (d1 d2 : MultiDict.t) (k v : string) airline s :
  k ≠ "raise" →
  get_flights g {| args := (d1 ++ (k, v) :: d2)%list |} airline s =
    get_flights g {| args := (d1 ++ d2)%list |} airline s ∧
  (k ≠ "passenger_name" → k ≠ "flight_num" →
   book_flight g {| args := (d1 ++ (k, v) :: d2)%list |} s =
     book_flight g {| args := (d1 ++ d2)%list |} s).
Proof.
  intros Hraise. split.
  - apply get_flights_reads. simpl. by apply get_app_cons_ne.
  - intros Hname Hnum.
    apply book_flight_reads; simpl; by apply get_app_cons_ne.
Qed.

Lemma unread_parameters_ignored_witness :
  get_flights utils.get_random_int
    {| args := [("flight_num", "101"); ("seat", "12A"); ("passenger_name", "Jane Doe")] |}
    "DL" [3%Z] =
  get_flights utils.get_random_int
    {| args := [("flight_num", "101"); ("passenger_name", "Jane Doe")] |} "DL" [3%Z] ∧
  book_flight utils.get_random_int
    {| args := [("flight_num", "101"); ("seat", "12A"); ("passenger_name", "Jane Doe")] |}
    [3%Z] =
  book_flight utils.get_random_int
    {| args := [("flight_num", "101"); ("passenger_name", "Jane Doe")] |} [3%Z].
Proof.
  destruct (unread_parameters_ignored utils.get_random_int
              [("flight_num", "101")] [("passenger_name", "Jane Doe")]
              "seat" "12A" "DL" [3%Z]) as [Hlookup Hbook].
  - discriminate.
  - split; [exact Hlookup | apply Hbook; discriminate].
Defined.

(** X4.  The first value sent for [raise] decides, and nothing sent after
    it can change the decision: once the query string holds a [raise],
    appending further parameters (another [raise] among them) leaves the
    whole run of LookupFlight as it was, and BookFlight raises the same
    exception or none as before. *)
Theorem first_raise_value_decides
    {G} (g : Z → Z → G → Z * G) (d d' : MultiDict.t) (v : string) airline s :
  MultiDict.get "raise" d = Some v →
  get_flights g {| args := (d ++ d')%list |} airline s =
    get_flights g {| args := d |} airline s ∧
  (∀ e, result (book_flight g {| args := (d ++ d')%list |} s) = Raised e ↔
        result (book_flight g {| args := d |} s) = Raised e).
Proof.
  intros Hget. pose proof (get_app_Some _ _ _ d' Hget) as Hget'. split.
  - apply get_flights_reads. simpl. by rewrite Hget, Hget'.
  - intros e. destruct (truthy (Some v)) eqn:Ht.
    + rewrite !book_flight_raise by (simpl; by rewrite ?Hget, ?Hget').
      simpl. by rewrite Hget, Hget'.
    + rewrite !book_flight_return by (simpl; by rewrite ?Hget, ?Hget').
      simpl. done.
Qed.

Lemma first_raise_value_decides_witness :
  get_flights utils.get_random_int
    {| args := [("raise", ""); ("raise", "500")] |} "UA" [11%Z] =
  get_flights utils.get_random_int {| args := [("raise", "")] |} "UA" [11%Z] ∧
  (∀ e, result (book_flight utils.get_random_int
                  {| args := [("raise", ""); ("raise", "500")] |} [11%Z]) = Raised e ↔
        result (book_flight utils.get_random_int
                  {| args := [("raise", "")] |} [11%Z]) = Raised e).
Proof.
  apply (first_raise_value_decides utils.get_random_int
           [("raise", "")] [("raise", "500")] "" "UA" [11%Z]).
  reflexivity.
Defined.

(** ** What the outcome tells about the request *)

Lemma returned_object_inj (o1 o2 : gmap string json) (c1 c2 : Z) :
  @Returned response (JObject o1, c1) = Returned (JObject o2, c2) →
  o1 = o2 ∧ c1 = c2.
Proof. intros Heq. split; congruence. Qed.

(** X5.  The exception identifies the injected code: when two requests, to
    either flight handler, end with the same exception, the same [raise]
    value was sent with both. *)
Theorem exception_identifies_code
    {G1 G2} (g1 : Z → Z → G1 → Z * G1) (g2 : Z → Z → G2 → Z * G2)
    request1 request2 airline1 airline2 s1 s2 e :
  result (get_flights g1 request1 airline1 s1) = Raised e ∨
  result (book_flight g1 request1 s1) = Raised e →
  result (get_flights g2 request2 airline2 s2) = Raised e ∨
  result (book_flight g2 request2 s2) = Raised e →
  MultiDict.get "raise" (args request1) = MultiDict.get "raise" (args request2).
Proof.
  intros (c1 & Hget1 & _ & He1)%raised_inv (c2 & Hget2 & _ & He2)%raised_inv.
  rewrite Hget1, Hget2. f_equal. apply message_inj. congruence.
Qed.

Lemma exception_identifies_code_witness :
  MultiDict.get "raise" (args {| args := [("raise", "503")] |}) =
  MultiDict.get "raise"
    (args {| args := [("flight_num", "606"); ("raise", "503"); ("raise", "500")] |}).
Proof.
  apply (exception_identifies_code utils.get_random_int utils.get_random_int
           {| args := [("raise", "503")] |}
           {| args := [("flight_num", "606"); ("raise", "503"); ("raise", "500")] |}
           "AA" "AA" [1%Z] [] (Exception "Encountered 503 error")).
  - left. reflexivity.
  - right. reflexivity.
Defined.

(** X6.  A successful LookupFlight response identifies the airline asked
    for and the flight number generated: two lookups that return the same
    response were made for the same airline and drew the same integer. *)
Theorem lookup_response_identifies_request
    {G1 G2} (g1 : Z → Z → G1 → Z * G1) (g2 : Z → Z → G2 → Z * G2)
    request1 request2 (airline1 airline2 : string) s1 s2 resp :
  result (get_flights g1 request1 airline1 s1) = Returned resp →
  result (get_flights g2 request2 airline2 s2) = Returned resp →
  airline1 = airline2 ∧ (g1 100 999 s1).1 = (g2 100 999 s2).1.
Proof.
  intros H1 H2.
  destruct (truthy (MultiDict.get "raise" (args request1))) eqn:Ht1;
    [by rewrite get_flights_raise in H1 |].
  destruct (truthy (MultiDict.get "raise" (args request2))) eqn:Ht2;
    [by rewrite get_flights_raise in H2 |].
  rewrite get_flights_return in H1 by done.
  rewrite get_flights_return in H2 by done. simpl in H1, H2.
  rewrite <- H2 in H1. apply returned_object_inj in H1 as [Hmap _].
  apply (f_equal (.!! airline1)) in Hmap.
  rewrite lookup_singleton_eq in Hmap. symmetry in Hmap.
  apply lookup_singleton_Some in Hmap as [-> [= ->]]. done.
Qed.

Lemma lookup_response_identifies_request_witness :
  "AA" = "AA" ∧
  (utils.get_random_int 100 999 [5%Z; 9%Z]).1 = (utils.get_random_int 100 999 [905%Z]).1.
Proof.
  apply (lookup_response_identifies_request
           utils.get_random_int utils.get_random_int
           {| args := [] |} {| args := [("raise", "")] |} "AA" "AA"
           [5%Z; 9%Z] [905%Z]
           (JObject {[ "AA" := JArray [JNumber 105] ]}, 200%Z)).
  - vm_compute. reflexivity.
  - vm_compute. reflexivity.
Defined.

(** X7.  The body of a successful BookFlight response reads back the
    request: a field is [null] exactly when its parameter was absent and the
    string [v] exactly when [v] was the first value sent for it (an empty
    value is echoed as the empty string, not as [null]); [booking_id] is the
    integer the generator returned. *)
Theorem booking_body_reads_back
    {G} (g : Z → Z → G → Z * G) request s (o : gmap string json) (code : Z) :
  result (book_flight g request s) = Returned (JObject o, code) →
  (o !! "passenger_name" = Some JNull ↔
   MultiDict.get "passenger_name" (args request) = None) ∧
  (o !! "flight_num" = Some JNull ↔
   MultiDict.get "flight_num" (args request) = None) ∧
  (∀ v, o !! "passenger_name" = Some (JString v) ↔
        MultiDict.get "passenger_name" (args request) = Some v) ∧
  (∀ v, o !! "flight_num" = Some (JString v) ↔
        MultiDict.get "flight_num" (args request) = Some v) ∧
  o !! "booking_id" = Some (JNumber (g 100 999 s).1).
Proof.
  intros Hres.
  destruct (truthy (MultiDict.get "raise" (args request))) eqn:Ht;
    [by rewrite book_flight_raise in Hres |].
  rewrite book_flight_return in Hres by done. simpl in Hres.
  apply returned_object_inj in Hres as [<- _].
  destruct (MultiDict.get "passenger_name" (args request)) as [pn|];
    destruct (MultiDict.get "flight_num" (args request)) as [fn|];
    simplify_map_eq; repeat split; intros; by simplify_eq.
Qed.

Lemma booking_body_reads_back_witness :
  let o : gmap string json :=
    {[ "passenger_name" := JString ""; "flight_num" := JNull;
       "booking_id" := JNumber 100 ]} in
  (o !! "passenger_name" = Some JNull ↔
   MultiDict.get "passenger_name" [("passenger_name", "")] = None) ∧
  (o !! "flight_num" = Some JNull ↔
   MultiDict.get "flight_num" [("passenger_name", "")] = None) ∧
  (∀ v, o !! "passenger_name" = Some (JString v) ↔
        MultiDict.get "passenger_name" [("passenger_name", "")] = Some v) ∧
  (∀ v, o !! "flight_num" = Some (JString v) ↔
        MultiDict.get "flight_num" [("passenger_name", "")] = Some v) ∧
  o !! "booking_id" = Some (JNumber (utils.get_random_int 100 999 []).1).
Proof.
  apply (booking_body_reads_back utils.get_random_int
           {| args := [("passenger_name", "")] |} [] _ 200%Z).
  vm_compute. reflexivity.
Defined.

(** ** The exporter endpoint *)

(** X8.  The collector endpoint is the value of
    [OTEL_EXPORTER_OTLP_ENDPOINT] followed by [/v1/logs].  The default
    address stands in only when the variable is unset: a value that is set,
    the empty string included, is used as it is.  No other variable has a
    say. *)
Theorem endpoint_from_environment (environ : gmap string string) (k v : string) :
  otlp_exporter_endpoint (delete "OTEL_EXPORTER_OTLP_ENDPOINT" environ) =
    "http://alloy:4318/v1/logs" ∧
  otlp_exporter_endpoint (<[ "OTEL_EXPORTER_OTLP_ENDPOINT" := v ]> environ) =
    v ++ "/v1/logs" ∧
  (k ≠ "OTEL_EXPORTER_OTLP_ENDPOINT" →
   otlp_exporter_endpoint (<[ k := v ]> environ) = otlp_exporter_endpoint environ ∧
   otlp_exporter_endpoint (delete k environ) = otlp_exporter_endpoint environ).
Proof.
  unfold otlp_exporter_endpoint, os.getenv. split; [| split].
  - by rewrite lookup_delete_eq.
  - by rewrite lookup_insert_eq.
  - intros Hne. by rewrite lookup_insert_ne, lookup_delete_ne.
Qed.

Lemma endpoint_from_environment_witness :
  let environ : gmap string string := {[ "OTEL_EXPORTER_OTLP_ENDPOINT" := "" ]} in
  otlp_exporter_endpoint (<[ "HOME" := "/root" ]> environ) =
    otlp_exporter_endpoint environ ∧
  otlp_exporter_endpoint (delete "HOME" environ) = otlp_exporter_endpoint environ.
Proof.
  apply (endpoint_from_environment
           {[ "OTEL_EXPORTER_OTLP_ENDPOINT" := "" ]} "HOME" "/root").
  discriminate.
Defined.
